(** * ZCode, package [git]: diff-mode selection, argument vectors and the
    prepare-commit-msg hook.

    A shallow embedding of [git/git.go] and of the functional options of the
    same package.  Go strings are byte strings ([string]), [[]byte] is
    [list byte], Go's [int] is [Z] (no arithmetic is done on it), the [error]
    interface is [option error] with [None] for [nil].  Everything that
    touches the operating system (running a process, testing, writing and
    removing a file) is a computation over an explicit [World]. *)

From Stdlib Require Import ZArith NArith List String Ascii Strings.Byte DecimalString.
From stdpp Require Import base gmap strings list.

Open Scope string_scope.
Open Scope list_scope.

(** ** Go library functions used by the package *)

Module strconv.

(** [strconv.Itoa]: the decimal text of an integer, with a leading [-] for a
    negative one. *)
Definition Itoa (i : Z) : string := NilEmpty.string_of_int (Z.to_int i).

End strconv.

Module strings.

(** [strings.Split(s, sep)] at a one-byte separator: the pieces of [s]
    between the occurrences of [sep]; one more piece than occurrences, so the
    empty string gives one empty piece. *)
Fixpoint Split (s : string) (sep : ascii) : list string :=
  match s with
  | EmptyString => [EmptyString]
  | String ch rest =>
      if Ascii.eqb ch sep then EmptyString :: Split rest sep
      else match Split rest sep with
           | piece :: pieces => String ch piece :: pieces
           | [] => [String ch EmptyString]
           end
  end.

End strings.

(** Used to state [Split] against its documentation: the number of
    separators in a text, and the pieces joined back with the separator. *)
Fixpoint count_byte (s : string) (sep : ascii) : nat :=
  match s with
  | EmptyString => 0
  | String ch rest =>
      (if Ascii.eqb ch sep then 1 else 0) + count_byte rest sep
  end.

Fixpoint Join (elems : list string) (sep : ascii) : string :=
  match elems with
  | [] => ""
  | [e] => e
  | e :: rest => e +:+ String sep (Join rest sep)
  end.

(** ** Configuration and functional options *)

(** The draft configuration the options write into. *)
Record config := mkConfig {
  cfg_diffUnified : Z;
  cfg_excludeList : list string;
  cfg_isAmend : bool;
  cfg_diffTagPrefix : string;
  cfg_diffList : list string;
  cfg_commitId : string
}.

(** [&config{}]: every field at its zero value. *)
Definition config_zero : config :=
  {| cfg_diffUnified := 0; cfg_excludeList := []; cfg_isAmend := false;
     cfg_diffTagPrefix := ""; cfg_diffList := []; cfg_commitId := "" |}.

(** An option is a function that rewrites the draft ([optionFunc]). *)
Definition optionFunc := config -> config.
Definition Option := optionFunc.

Definition apply (o : Option) (c : config) : config := o c.

Definition WithDiffUnified (val : Z) : Option := fun c =>
  {| cfg_diffUnified := val; cfg_excludeList := cfg_excludeList c;
     cfg_isAmend := cfg_isAmend c; cfg_diffTagPrefix := cfg_diffTagPrefix c;
     cfg_diffList := cfg_diffList c; cfg_commitId := cfg_commitId c |}.

Definition WithExcludeList (val : list string) : Option := fun c =>
  if (length val =? 0)%nat then c
  else
    {| cfg_diffUnified := cfg_diffUnified c; cfg_excludeList := val;
       cfg_isAmend := cfg_isAmend c; cfg_diffTagPrefix := cfg_diffTagPrefix c;
       cfg_diffList := cfg_diffList c; cfg_commitId := cfg_commitId c |}.

Definition WithEnableAmend (val : bool) : Option := fun c =>
  {| cfg_diffUnified := cfg_diffUnified c; cfg_excludeList := cfg_excludeList c;
     cfg_isAmend := val; cfg_diffTagPrefix := cfg_diffTagPrefix c;
     cfg_diffList := cfg_diffList c; cfg_commitId := cfg_commitId c |}.

Definition WithDiffTagPrefix (val : string) : Option := fun c =>
  {| cfg_diffUnified := cfg_diffUnified c; cfg_excludeList := cfg_excludeList c;
     cfg_isAmend := cfg_isAmend c; cfg_diffTagPrefix := val;
     cfg_diffList := cfg_diffList c; cfg_commitId := cfg_commitId c |}.

Definition WithDiffList (val : list string) : Option := fun c =>
  {| cfg_diffUnified := cfg_diffUnified c; cfg_excludeList := cfg_excludeList c;
     cfg_isAmend := cfg_isAmend c; cfg_diffTagPrefix := cfg_diffTagPrefix c;
     cfg_diffList := val; cfg_commitId := cfg_commitId c |}.

Definition WithCommitId (val : string) : Option := fun c =>
  {| cfg_diffUnified := cfg_diffUnified c; cfg_excludeList := cfg_excludeList c;
     cfg_isAmend := cfg_isAmend c; cfg_diffTagPrefix := cfg_diffTagPrefix c;
     cfg_diffList := cfg_diffList c; cfg_commitId := val |}.

(** The [Option] interface has an unexported method, so a caller can only
    obtain options from the six constructors above.  [OptionCall] names such
    a call and [build] performs it. *)
Inductive OptionCall :=
| CallDiffUnified (val : Z)
| CallExcludeList (val : list string)
| CallEnableAmend (val : bool)
| CallDiffTagPrefix (val : string)
| CallDiffList (val : list string)
| CallCommitId (val : string).

Definition build (k : OptionCall) : Option :=
  match k with
  | CallDiffUnified v => WithDiffUnified v
  | CallExcludeList v => WithExcludeList v
  | CallEnableAmend v => WithEnableAmend v
  | CallDiffTagPrefix v => WithDiffTagPrefix v
  | CallDiffList v => WithDiffList v
  | CallCommitId v => WithCommitId v
  end.

Definition is_unified_call (k : OptionCall) : bool :=
  match k with CallDiffUnified _ => true | _ => false end.

(** The entries a caller supplies for exclusion: those of the last exclusion
    option whose list is not empty (a later option overrides an earlier one,
    an empty one is skipped); none when there is no such option. *)
Fixpoint supplied_excludes (acc : list string) (calls : list OptionCall)
  : list string :=
  match calls with
  | [] => acc
  | CallExcludeList (e :: es) :: rest => supplied_excludes (e :: es) rest
  | _ :: rest => supplied_excludes acc rest
  end.

(** ** The command *)

Definition excludeFromDiff : list string :=
  [ "package-lock.json"; "pnpm-lock.yaml"; "*.lock"; "go.sum" ].

Record Command := mkCommand {
  diffUnified : Z;
  excludeList : list string;
  isAmend : bool;
  diffTagPrefix : string
}.

(** The options are applied in the order given. *)
Definition apply_all (opts : list Option) (c : config) : config :=
  fold_left (fun acc o => apply o acc) opts c.

Definition New (opts : list Option) : Command :=
  let cfg := apply_all opts config_zero in
  {| diffUnified := cfg_diffUnified cfg;
     excludeList := excludeFromDiff ++ cfg_excludeList cfg;
     isAmend := cfg_isAmend cfg;
     diffTagPrefix := cfg_diffTagPrefix cfg |}.

(** The loop of [excludeFiles]: one pathspec appended per entry. *)
Definition excludeFiles (c : Command) : list string :=
  fold_left (fun excludedFiles f => excludedFiles ++ [":(exclude,top)" +:+ f])
            (excludeList c) [].

(** ** The operating system *)

(** Go [error] values: [errors_New] is [errors.New]; the others stand for
    the errors of [os/exec], of [os] and of the template loader. *)
Inductive error :=
| errors_New (text : string)
| ExecError (text : string)
| PathError (op name : string)
| TemplateError (text : string).

(** [exec.Cmd]: [Args] holds the command name followed by its arguments;
    [Path] is the name as given (looking it up is left to the host). *)
Record Cmd := mkCmd { Path : string; Args : list string }.

Definition exec_Command (name : string) (arg : list string) : Cmd :=
  {| Path := name; Args := name :: arg |}.

Inductive node :=
| File (data : list byte) (mode : N)
| Dir.

(** What a computation did to the outside, in order. *)
Inductive Event :=
| EvExec (c : Cmd)
| EvWrite (name : string) (data : list byte) (perm : N)
| EvRemove (name : string).

(** The world a command runs in.  [processes] gives what [Output] returns for
    a command line (the repository seen by git is fixed while the operations
    below run); [files] maps a path to what is there; [write_fault] and
    [remove_fault] are failures of the file system that the map does not
    explain (permissions, a missing parent directory); [trace] records the
    processes run and the writes and removals asked for. *)
Record World := mkWorld {
  processes : Cmd -> list byte * option error;
  write_fault : string -> option error;
  remove_fault : string -> option error;
  files : gmap string node;
  trace : list Event
}.

Definition log (ev : Event) (w : World) : World :=
  {| processes := processes w; write_fault := write_fault w;
     remove_fault := remove_fault w; files := files w;
     trace := trace w ++ [ev] |}.

Definition set_files (fs : gmap string node) (w : World) : World :=
  {| processes := processes w; write_fault := write_fault w;
     remove_fault := remove_fault w; files := fs; trace := trace w |}.

(** Computations over the world. *)
Definition M (A : Type) : Type := World -> A * World.

Definition ret {A} (a : A) : M A := fun w => (a, w).

Definition bind {A B} (m : M A) (k : A -> M B) : M B :=
  fun w => let (a, w') := m w in k a w'.

Notation "'let*' x ':=' m 'in' k" := (bind m (fun x => k))
  (at level 10, x name, m at level 100, k at level 200, only parsing).
Notation "'let*' ' p ':=' m 'in' k" := (bind m (fun p => k))
  (at level 10, p strict pattern, m at level 100, k at level 200, only parsing).

(** [Output] of [exec.Cmd]: standard output and the error of the run. *)
Definition Output (c : Cmd) : M (list byte * option error) :=
  fun w => (processes w c, log (EvExec c) w).

(** [file.IsFile]: the path exists and is not a directory. *)
Definition file_IsFile (filePath : string) : M bool :=
  fun w => (match files w !! filePath with
            | Some (File _ _) => true
            | _ => false
            end, w).

(** [os.WriteFile]: creates the file with mode [perm], or replaces the data
    of an existing file and keeps its mode; a failed write leaves the files
    as they were. *)
Definition os_WriteFile (name : string) (data : list byte) (perm : N)
  : M (option error) :=
  fun w =>
    let w1 := log (EvWrite name data perm) w in
    match write_fault w name with
    | Some e => (Some e, w1)
    | None =>
        match files w !! name with
        | Some Dir => (Some (PathError "open" name), w1)
        | Some (File _ mode) =>
            (None, set_files (<[name := File data mode]> (files w)) w1)
        | None => (None, set_files (<[name := File data perm]> (files w)) w1)
        end
    end.

(** [os.Remove]: removes what is at the path; fails when nothing is there. *)
Definition os_Remove (name : string) : M (option error) :=
  fun w =>
    let w1 := log (EvRemove name) w in
    match remove_fault w name with
    | Some e => (Some e, w1)
    | None =>
        match files w !! name with
        | Some _ => (None, set_files (delete name (files w)) w1)
        | None => (Some (PathError "remove" name), w1)
        end
    end.

(** ** Tag resolution and argument vectors *)

Definition latestTwoTags (c : Command) (tagGrepHead : string) : Cmd :=
  let cmdStr :=
    "git tag --sort=-creatordate | grep '^" +:+ tagGrepHead +:+
    "' | head -n 2 | tr '\n' ' ' | sed 's/ $//'" in
  exec_Command "bash" ["-c"; cmdStr].

(** The named results start as [false] and two empty strings. *)
Definition IsDiffTag (c : Command) : M (bool * string * string) :=
  if negb (diffTagPrefix c =? "")%string then
    let is_ := true in
    let tagCmd := latestTwoTags c (diffTagPrefix c) in
    let* ' (output, err) := Output tagCmd in
    match err with
    | Some _ => ret (false, "", "")
    | None =>
        let tags := strings.Split (string_of_list_byte output) " " in
        if (length tags =? 2)%nat
        then ret (is_, nth 0 tags "", nth 1 tags "")
        else ret (is_, "", "")
    end
  else ret (false, "", "").

Definition diffNames (c : Command) : M Cmd :=
  let args := ["diff"; "--name-only"] in
  let* args :=
    if negb (diffTagPrefix c =? "")%string then
      let* ' (is_, tag1, tag2) := IsDiffTag c in
      if is_ && negb (tag1 =? "")%string && negb (tag2 =? "")%string
      then ret (args ++ [tag1; tag2])
      else ret args
    else if isAmend c then ret (args ++ ["HEAD^"; "HEAD"])
    else ret (args ++ ["--staged"]) in
  let excludedFiles := excludeFiles c in
  let args := args ++ excludedFiles in
  ret (exec_Command "git" args).

Definition diffFiles (c : Command) : M Cmd :=
  let args :=
    [ "diff"; "--ignore-all-space"; "--diff-algorithm=minimal";
      "--unified=" +:+ strconv.Itoa (diffUnified c) ] in
  let* args :=
    if negb (diffTagPrefix c =? "")%string then
      let* ' (is_, tag1, tag2) := IsDiffTag c in
      if is_ && negb (tag1 =? "")%string && negb (tag2 =? "")%string
      then ret (args ++ [tag1; tag2])
      else ret args
    else if isAmend c then ret (args ++ ["HEAD^"; "HEAD"])
    else ret (args ++ ["--staged"]) in
  let excludedFiles := excludeFiles c in
  let args := args ++ excludedFiles in
  ret (exec_Command "git" args).

Definition hookPath (c : Command) : Cmd :=
  exec_Command "git" ["rev-parse"; "--git-path"; "hooks"].

Definition gitDir (c : Command) : Cmd :=
  exec_Command "git" ["rev-parse"; "--git-dir"].

Definition commit (c : Command) (val : string) : Cmd :=
  let args :=
    ["commit"; "--no-verify"; "--signoff"; "--message=" +:+ val] in
  let args := if isAmend c then args ++ ["--amend"] else args in
  exec_Command "git" args.

(** ** Public operations *)

Definition Commit (c : Command) (val : string) : M (string * option error) :=
  let* ' (output, err) := Output (commit c val) in
  match err with
  | Some e => ret ("", Some e)
  | None => ret (string_of_list_byte output, None)
  end.

Definition GitDir (c : Command) : M (string * option error) :=
  let* ' (output, err) := Output (gitDir c) in
  match err with
  | Some e => ret ("", Some e)
  | None => ret (string_of_list_byte output, None)
  end.

Definition errNothingStaged : error :=
  errors_New "please add your staged changes using git add <files...>".

Definition DiffFiles (c : Command) : M (string * option error) :=
  let* names := diffNames c in
  let* ' (output, err) := Output names in
  match err with
  | Some e => ret ("", Some e)
  | None =>
      if (string_of_list_byte output =? "")%string
      then ret ("", Some errNothingStaged)
      else
        let* full := diffFiles c in
        let* ' (output, err) := Output full in
        match err with
        | Some e => ret ("", Some e)
        | None => ret (string_of_list_byte output, None)
        end
  end.

Definition errHookExists : error :=
  errors_New "hook file prepare-commit-msg exist.".

Definition errHookMissing : error :=
  errors_New "hook file prepare-commit-msg is not exist.".

Section Hook.

(** The file name constant of the hook and the template loader of package
    [util] (called with no data) are declared outside the two files embedded
    here, and [strings.TrimSpace] and [path.Join] belong to Go's library: the
    hook operations take all four as given. *)
Variable HookPrepareCommitMessageTemplate : string.
Variable GetTemplateByBytes : string -> list byte * option error.
Variable TrimSpace : string -> string.
Variable path_Join : string -> string -> string.

(** The [target] of both operations, given what the hooks query printed. *)
Definition hookTarget (printed : list byte) : string :=
  path_Join (TrimSpace (string_of_list_byte printed))
            HookPrepareCommitMessageTemplate.

Definition InstallHook (c : Command) : M (option error) :=
  let* ' (printed, err) := Output (hookPath c) in
  match err with
  | Some e => ret (Some e)
  | None =>
      let target :=
        path_Join (TrimSpace (string_of_list_byte printed))
                  HookPrepareCommitMessageTemplate in
      let* present := file_IsFile target in
      if present then ret (Some errHookExists)
      else
        let (content, err) :=
          GetTemplateByBytes HookPrepareCommitMessageTemplate in
        match err with
        | Some e => ret (Some e)
        | None => os_WriteFile target content 493
        end
  end.

Definition UninstallHook (c : Command) : M (option error) :=
  let* ' (printed, err) := Output (hookPath c) in
  match err with
  | Some e => ret (Some e)
  | None =>
      let target :=
        path_Join (TrimSpace (string_of_list_byte printed))
                  HookPrepareCommitMessageTemplate in
      let* present := file_IsFile target in
      if negb present then ret (Some errHookMissing)
      else os_Remove target
  end.

End Hook.

(** ** What the builders append, read off as pure functions

    The two diff builders run the tag listing while they assemble their
    arguments.  [tagEvents] is what that adds to the trace and [rangeArgs]
    the arguments it selects; the lemmas of the next section show that the
    builders compute exactly these. *)

Definition logs (evs : list Event) (w : World) : World :=
  {| processes := processes w; write_fault := write_fault w;
     remove_fault := remove_fault w; files := files w;
     trace := trace w ++ evs |}.

Definition tagEvents (c : Command) : list Event :=
  if (diffTagPrefix c =? "")%string then []
  else [EvExec (latestTwoTags c (diffTagPrefix c))].

Definition rangeArgs (c : Command) (w : World) : list string :=
  if negb (diffTagPrefix c =? "")%string then
    let '(is_, tag1, tag2) := fst (IsDiffTag c w) in
    if is_ && negb (tag1 =? "")%string && negb (tag2 =? "")%string
    then [tag1; tag2] else []
  else if isAmend c then ["HEAD^"; "HEAD"] else ["--staged"].

(** The events a computation adds to the trace of the world it starts in. *)
Definition emitted {A} (m : M A) (w : World) : list Event :=
  drop (length (trace w)) (trace (snd (m w))).

(** The tag pair as the specification words it: the listing succeeded and
    its output splits at single spaces into exactly two tokens, neither of
    them empty. *)
Definition spec_tag_pair (r : list byte * option error)
  : option (string * string) :=
  match r with
  | (_, Some _) => None
  | (output, None) =>
      match strings.Split (string_of_list_byte output) " " with
      | [t1; t2] =>
          if negb (t1 =? "")%string && negb (t2 =? "")%string
          then Some (t1, t2) else None
      | _ => None
      end
  end.

(** ** Worlds used in the examples *)

(** Every process prints [out] and succeeds; no file exists. *)
Definition world_printing (out : string) : World :=
  {| processes := fun _ => (list_byte_of_string out, None);
     write_fault := fun _ => None; remove_fault := fun _ => None;
     files := ∅; trace := [] |}.

(** Every process fails. *)
Definition world_failing : World :=
  {| processes := fun _ => ([], Some (ExecError "exit status 1"));
     write_fault := fun _ => None; remove_fault := fun _ => None;
     files := ∅; trace := [] |}.

(** The tag listing prints [tags], every other process prints [out]. *)
Definition world_tagged (tags out : string) : World :=
  {| processes := fun cmd =>
       if (Path cmd =? "bash")%string then (list_byte_of_string tags, None)
       else (list_byte_of_string out, None);
     write_fault := fun _ => None; remove_fault := fun _ => None;
     files := ∅; trace := [] |}.

(** The hooks query prints [.git/hooks] and a newline; [fs] is on disk. *)
Definition world_hooks (fs : gmap string node) : World :=
  {| processes := fun _ => (list_byte_of_string (".git/hooks" +:+ String "010" ""), None);
     write_fault := fun _ => None; remove_fault := fun _ => None;
     files := fs; trace := [] |}.

(** Stand-ins for the four givens of the hook operations: the file name of
    the hook, a loader with one template, a [TrimSpace] that drops trailing
    newlines and blanks, and a [Join] that puts a slash between its
    arguments. *)
Definition sample_hook_name : string := "prepare-commit-msg".

Definition sample_loader (name : string) : list byte * option error :=
  if (name =? sample_hook_name)%string
  then (list_byte_of_string "#!/bin/sh", None)
  else ([], Some (TemplateError name)).

Fixpoint sample_trim (s : string) : string :=
  match s with
  | EmptyString => EmptyString
  | String ch rest =>
      match sample_trim rest with
      | EmptyString =>
          if (Ascii.eqb ch " " || Ascii.eqb ch "010")%bool then EmptyString
          else String ch EmptyString
      | t => String ch t
      end
  end.

Definition sample_join (dir name : string) : string := dir +:+ "/" +:+ name.

(** The operations of two commands agree, whatever the hook's givens. *)
Definition same_operations (c1 c2 : Command) : Prop :=
  DiffFiles c1 = DiffFiles c2 /\
  Commit c1 = Commit c2 /\
  GitDir c1 = GitDir c2 /\
  IsDiffTag c1 = IsDiffTag c2 /\
  (forall name loader trim join,
     InstallHook name loader trim join c1 = InstallHook name loader trim join c2) /\
  (forall name trim join,
     UninstallHook name trim join c1 = UninstallHook name trim join c2).

(** Refutes membership in a list that computes to explicit strings. *)
Ltac refute_In :=
  let H := fresh "H" in
  intros H; vm_compute in H;
  repeat (destruct H as [H|H]; [discriminate H|]); exact H.

(** ** Notions used to state further properties *)

(** The field of the draft an option writes, numbered in the order of the
    fields of [config]. *)
Definition field_of (k : OptionCall) : nat :=
  match k with
  | CallDiffUnified _ => 0
  | CallExcludeList _ => 1
  | CallEnableAmend _ => 2
  | CallDiffTagPrefix _ => 3
  | CallDiffList _ => 4
  | CallCommitId _ => 5
  end.

(** The two options whose field [New] does not read. *)
Definition is_inert_call (k : OptionCall) : bool :=
  match k with
  | CallDiffList _ | CallCommitId _ => true
  | _ => false
  end.

(** Two drafts agree on the four fields [New] reads. *)
Definition same_four (c1 c2 : config) : Prop :=
  cfg_diffUnified c1 = cfg_diffUnified c2 /\
  cfg_excludeList c1 = cfg_excludeList c2 /\
  cfg_isAmend c1 = cfg_isAmend c2 /\
  cfg_diffTagPrefix c1 = cfg_diffTagPrefix c2.

(** The command with its amend flag replaced. *)
Definition set_amend (c : Command) (b : bool) : Command :=
  {| diffUnified := diffUnified c; excludeList := excludeList c;
     isAmend := b; diffTagPrefix := diffTagPrefix c |}.


Definition is_exec_git (ev : Event) : bool :=
  match ev with
  | EvExec cmd => (Path cmd =? "git")%string
  | _ => false
  end.

(** The name listing prints [a.go]; every other process prints nothing. *)
Definition world_names_only : World :=
  {| processes := fun cmd =>
       if existsb (String.eqb "--name-only") (Args cmd)
       then (list_byte_of_string "a.go", None) else ([], None);
     write_fault := fun _ => None; remove_fault := fun _ => None;
     files := ∅; trace := [] |}.

(** ** Lemmas on the library functions and on the builders *)

Lemma excludeFiles_map (c : Command) :
  excludeFiles c = map (fun f => ":(exclude,top)" +:+ f) (excludeList c).
Proof.
  unfold excludeFiles.
  enough (H : forall l acc,
             fold_left (fun ex f => ex ++ [":(exclude,top)" +:+ f]) l acc
             = acc ++ map (fun f => ":(exclude,top)" +:+ f) l)
    by apply (H _ []).
  induction l as [|f l IH]; intros acc; simpl.
  - now rewrite app_nil_r.
  - rewrite IH, <- app_assoc. reflexivity.
Qed.

Lemma apply_all_app (xs ys : list Option) (c : config) :
  apply_all (xs ++ ys) c = apply_all ys (apply_all xs c).
Proof. unfold apply_all. apply fold_left_app. Qed.

Lemma logs_nil (w : World) : logs [] w = w.
Proof. destruct w; unfold logs; simpl. now rewrite app_nil_r. Qed.

Lemma logs_logs (e1 e2 : list Event) (w : World) :
  logs e2 (logs e1 w) = logs (e1 ++ e2) w.
Proof. unfold logs; simpl. now rewrite app_assoc. Qed.

Lemma log_logs (ev : Event) (w : World) : log ev w = logs [ev] w.
Proof. reflexivity. Qed.

Lemma emitted_logs {A} (m : M A) (w : World) (evs : list Event) :
  snd (m w) = logs evs w -> emitted m w = evs.
Proof.
  intros H. unfold emitted. rewrite H. simpl.
  now rewrite drop_app_length.
Qed.

(** The tag query only adds its own run to the trace. *)
Lemma IsDiffTag_world (c : Command) (w : World) :
  snd (IsDiffTag c w) = logs (tagEvents c) w.
Proof.
  unfold IsDiffTag, tagEvents.
  destruct (diffTagPrefix c =? "")%string; simpl.
  - now rewrite logs_nil.
  - unfold bind, Output.
    destruct (processes w (latestTwoTags c (diffTagPrefix c))) as [out [e|]];
      simpl; [reflexivity|].
    now destruct (length _ =? 2)%nat.
Qed.

(** Its answer depends on the world through the processes only. *)
Lemma IsDiffTag_value_ext (c : Command) (w w' : World) :
  processes w = processes w' -> fst (IsDiffTag c w) = fst (IsDiffTag c w').
Proof.
  intros H. unfold IsDiffTag.
  destruct (diffTagPrefix c =? "")%string; simpl; [reflexivity|].
  unfold bind, Output. rewrite H.
  destruct (processes w' (latestTwoTags c (diffTagPrefix c))) as [out [e|]];
    simpl; [reflexivity|].
  now destruct (length _ =? 2)%nat.
Qed.

Lemma rangeArgs_ext (c : Command) (w w' : World) :
  processes w = processes w' -> rangeArgs c w = rangeArgs c w'.
Proof.
  intros H. unfold rangeArgs.
  now rewrite (IsDiffTag_value_ext c w w' H).
Qed.

Lemma diffNames_run (c : Command) (w : World) :
  diffNames c w =
  (exec_Command "git" (["diff"; "--name-only"] ++ rangeArgs c w ++ excludeFiles c),
   logs (tagEvents c) w).
Proof.
  unfold diffNames, rangeArgs, bind.
  pose proof (IsDiffTag_world c w) as Hw.
  unfold tagEvents in *.
  destruct (diffTagPrefix c =? "")%string; simpl in *.
  - rewrite logs_nil. now destruct (isAmend c).
  - destruct (IsDiffTag c w) as [[[is_ tag1] tag2] w1]; simpl in *. subst w1.
    now destruct (is_ && negb (tag1 =? "")%string && negb (tag2 =? "")%string).
Qed.

Lemma diffFiles_run (c : Command) (w : World) :
  diffFiles c w =
  (exec_Command "git"
     ([ "diff"; "--ignore-all-space"; "--diff-algorithm=minimal";
        "--unified=" +:+ strconv.Itoa (diffUnified c) ]
      ++ rangeArgs c w ++ excludeFiles c),
   logs (tagEvents c) w).
Proof.
  unfold diffFiles, rangeArgs, bind.
  pose proof (IsDiffTag_world c w) as Hw.
  unfold tagEvents in *.
  destruct (diffTagPrefix c =? "")%string; simpl in *.
  - rewrite logs_nil. now destruct (isAmend c).
  - destruct (IsDiffTag c w) as [[[is_ tag1] tag2] w1]; simpl in *. subst w1.
    now destruct (is_ && negb (tag1 =? "")%string && negb (tag2 =? "")%string).
Qed.

(** [Split] against its documentation: one piece more than there are
    separators, and joining the pieces with the separator gives the text
    back. *)
Lemma Split_length (s : string) (sep : ascii) :
  length (strings.Split s sep) = S (count_byte s sep).
Proof.
  induction s as [|ch rest IH]; simpl; [reflexivity|].
  destruct (Ascii.eqb ch sep); simpl.
  - now rewrite IH.
  - destruct (strings.Split rest sep); simpl in *; [discriminate IH | exact IH].
Qed.

Lemma Join_Split (s : string) (sep : ascii) :
  Join (strings.Split s sep) sep = s.
Proof.
  induction s as [|ch rest IH]; simpl; [reflexivity|].
  destruct (Ascii.eqb ch sep) eqn:E.
  - apply Ascii.eqb_eq in E. subst ch.
    pose proof (Split_length rest sep) as L.
    destruct (strings.Split rest sep) as [|p ps]; [discriminate L|].
    simpl. now rewrite <- IH.
  - pose proof (Split_length rest sep) as L.
    destruct (strings.Split rest sep) as [|p ps]; [discriminate L|].
    rewrite <- IH. destruct ps; reflexivity.
Qed.

Lemma Split_pieces_free (s : string) (sep : ascii) :
  Forall (fun piece => count_byte piece sep = 0) (strings.Split s sep).
Proof.
  induction s as [|ch rest IH]; simpl.
  - repeat constructor.
  - destruct (Ascii.eqb ch sep) eqn:E.
    + constructor; [reflexivity | exact IH].
    + destruct (strings.Split rest sep) as [|p ps].
      * repeat constructor. simpl. now rewrite E.
      * inversion IH; subst. constructor; [|assumption].
        simpl. now rewrite E.
Qed.

(** Options other than the exclusion option leave the exclusion list of the
    draft alone, and so on, field by field. *)
Lemma apply_all_excludes (calls : list OptionCall) (c : config) :
  cfg_excludeList (apply_all (map build calls) c)
  = supplied_excludes (cfg_excludeList c) calls.
Proof.
  revert c. induction calls as [|k calls IH]; intros c; [reflexivity|].
  change (apply_all (map build (k :: calls)) c)
    with (apply_all (map build calls) (build k c)).
  rewrite IH. destruct k as [v|[|e es]|v|v|v|v]; reflexivity.
Qed.

Lemma apply_all_unified (calls : list OptionCall) (c : config) :
  forallb (fun k => negb (is_unified_call k)) calls = true ->
  cfg_diffUnified (apply_all (map build calls) c) = cfg_diffUnified c.
Proof.
  revert c. induction calls as [|k calls IH]; intros c H; [reflexivity|].
  simpl in H. apply andb_prop in H as [Hk Hrest].
  change (apply_all (map build (k :: calls)) c)
    with (apply_all (map build calls) (build k c)).
  rewrite (IH _ Hrest).
  destruct k as [v|[|e es]|v|v|v|v]; try reflexivity. discriminate Hk.
Qed.

Lemma WithExcludeList_nil (c : config) : WithExcludeList [] c = c.
Proof. reflexivity. Qed.

(** ** The definitions on small inputs *)

Example Itoa_samples :
  strconv.Itoa 3 = "3" /\ strconv.Itoa 0 = "0" /\ strconv.Itoa (-12) = "-12".
Proof. repeat split. Qed.

Example Split_samples :
  strings.Split "v1.2.0 v1.1.0" " " = ["v1.2.0"; "v1.1.0"] /\
  strings.Split "v1.2.0" " " = ["v1.2.0"] /\
  strings.Split "" " " = [""] /\
  strings.Split "a  b" " " = ["a"; ""; "b"].
Proof. repeat split. Qed.

Example New_later_exclusion_overrides :
  excludeList (New [WithExcludeList ["a"]; WithExcludeList [];
                    WithExcludeList ["b"; "c"]])
  = ["package-lock.json"; "pnpm-lock.yaml"; "*.lock"; "go.sum"; "b"; "c"].
Proof. reflexivity. Qed.

Example diffFiles_tag_range :
  Args (fst (diffFiles (New [WithDiffUnified 5; WithDiffTagPrefix "v"])
                       (world_tagged "v1.2.0 v1.1.0" "a.go")))
  = ["git"; "diff"; "--ignore-all-space"; "--diff-algorithm=minimal";
     "--unified=5"; "v1.2.0"; "v1.1.0";
     ":(exclude,top)package-lock.json"; ":(exclude,top)pnpm-lock.yaml";
     ":(exclude,top)*.lock"; ":(exclude,top)go.sum"].
Proof. reflexivity. Qed.

Example DiffFiles_processes_run :
  trace (snd (DiffFiles (New [WithDiffTagPrefix "v"])
                        (world_tagged "v1.2.0" "a.go")))
  = [ EvExec (latestTwoTags (New [WithDiffTagPrefix "v"]) "v");
      EvExec (exec_Command "git"
                ("diff" :: "--name-only" :: excludeFiles (New [])));
      EvExec (latestTwoTags (New [WithDiffTagPrefix "v"]) "v");
      EvExec (exec_Command "git"
                ("diff" :: "--ignore-all-space" :: "--diff-algorithm=minimal"
                 :: "--unified=0" :: excludeFiles (New []))) ].
Proof. reflexivity. Qed.

(** ** Construction: defaults, exclusions, unused options *)

(** C2, as the specification states it, fails: [New] with no option leaves
    the context-line count at 0, not 3, and the full-diff arguments hold
    [--unified=0] and not [--unified=3]. *)
Lemma C2_counterexample_default_is_not_three :
  diffUnified (New []) = 0%Z /\
  In "--unified=0" (Args (fst (diffFiles (New []) (world_printing "x")))) /\
  ~ In "--unified=3" (Args (fst (diffFiles (New []) (world_printing "x")))).
Proof.
  split; [reflexivity|]. split.
  - vm_compute. tauto.
  - refute_In.
Qed.

(** C2 (amended): a command built from options none of which is the
    context-line option has context-line count 0, the zero value of the
    draft, and its full-diff argument vector contains [--unified=0]. *)
Theorem C2_default_context_is_zero (calls : list OptionCall) (w : World) :
  forallb (fun k => negb (is_unified_call k)) calls = true ->
  diffUnified (New (map build calls)) = 0%Z /\
  In "--unified=0" (Args (fst (diffFiles (New (map build calls)) w))).
Proof.
  intros H.
  assert (Hz : diffUnified (New (map build calls)) = 0%Z).
  { unfold New; simpl. now rewrite (apply_all_unified calls config_zero H). }
  split; [exact Hz|].
  rewrite diffFiles_run, Hz. simpl. tauto.
Qed.

Lemma C2_default_context_is_zero_witness :
  In "--unified=0"
     (Args (fst (diffFiles
                   (New (map build [CallEnableAmend true; CallExcludeList ["dist"]]))
                   (world_printing "x")))).
Proof.
  exact (proj2 (C2_default_context_is_zero
                  [CallEnableAmend true; CallExcludeList ["dist"]]
                  (world_printing "x") eq_refl)).
Defined.

(** C6: whatever options are given, the exclusion list of the command is the
    four built-in entries, in order, followed by exactly the entries the
    caller supplied (those of the last exclusion option with a non-empty
    list); an exclusion option with an empty list, anywhere among the
    options, changes nothing.  The last two parts hold for any list of
    option functions: an empty exclusion option appended to it is a no-op,
    and the list always starts with the four built-in entries. *)
Theorem C6_exclusions_are_defaults_then_supplied
  (before after : list OptionCall) (opts : list Option) :
  excludeList (New (map build before)) =
    ["package-lock.json"; "pnpm-lock.yaml"; "*.lock"; "go.sum"]
    ++ supplied_excludes [] before
  /\ New (map build (before ++ CallExcludeList [] :: after))
     = New (map build (before ++ after))
  /\ New (opts ++ [WithExcludeList []]) = New opts
  /\ firstn 4 (excludeList (New opts)) =
     ["package-lock.json"; "pnpm-lock.yaml"; "*.lock"; "go.sum"].
Proof.
  split; [|split; [|split]].
  - unfold New; simpl. rewrite (apply_all_excludes before config_zero).
    reflexivity.
  - unfold New. rewrite !map_app, !apply_all_app. reflexivity.
  - unfold New. rewrite apply_all_app. reflexivity.
  - reflexivity.
Qed.

Lemma same_operations_refl (c : Command) : same_operations c c.
Proof. repeat split. Qed.

(** C10: appending [WithCommitId] or [WithDiffList] to the options given to
    [New] gives the same command, field for field, so each of the six public
    operations is the same computation with or without the option. *)
Theorem C10_commit_id_and_diff_list_are_inert
  (opts : list Option) (id : string) (targets : list string) :
  New (opts ++ [WithCommitId id]) = New opts /\
  New (opts ++ [WithDiffList targets]) = New opts /\
  same_operations (New (opts ++ [WithCommitId id])) (New opts) /\
  same_operations (New (opts ++ [WithDiffList targets])) (New opts).
Proof.
  assert (H1 : New (opts ++ [WithCommitId id]) = New opts)
    by (unfold New; rewrite apply_all_app; reflexivity).
  assert (H2 : New (opts ++ [WithDiffList targets]) = New opts)
    by (unfold New; rewrite apply_all_app; reflexivity).
  rewrite H1, H2.
  repeat split.
Qed.

(** ** Tag resolution *)

Lemma nonempty_eqb (s : string) : s <> "" -> (s =? "")%string = false.
Proof. intros H. now apply String.eqb_neq. Qed.

(** What [IsDiffTag] returns under a non-empty prefix, by the outcome of the
    tag listing. *)
Lemma IsDiffTag_value (c : Command) (w : World) :
  diffTagPrefix c <> "" ->
  fst (IsDiffTag c w) =
    match processes w (latestTwoTags c (diffTagPrefix c)) with
    | (_, Some _) => (false, "", "")
    | (output, None) =>
        match strings.Split (string_of_list_byte output) " " with
        | [t1; t2] => (true, t1, t2)
        | _ => (true, "", "")
        end
    end.
Proof.
  intros Hp. unfold IsDiffTag. rewrite (nonempty_eqb _ Hp). simpl.
  unfold bind, Output.
  destruct (processes w (latestTwoTags c (diffTagPrefix c))) as [out [e|]];
    simpl; [reflexivity|].
  destruct (strings.Split (string_of_list_byte out) " ") as [|t1 [|t2 [|t3 ts]]];
    reflexivity.
Qed.

(** C3, as the specification states it, fails: under the prefix [v] and a
    tag listing that exits with an error, [IsDiffTag] answers [false] with
    two empty tags, not [true]. *)
Lemma C3_counterexample_failed_listing_reports_false :
  diffTagPrefix (New [WithDiffTagPrefix "v"]) = "v" /\
  snd (processes world_failing (latestTwoTags (New [WithDiffTagPrefix "v"]) "v"))
    = Some (ExecError "exit status 1") /\
  fst (IsDiffTag (New [WithDiffTagPrefix "v"]) world_failing) = (false, "", "") /\
  fst (IsDiffTag (New [WithDiffTagPrefix "v"]) world_failing) <> (true, "", "").
Proof. repeat split. discriminate. Qed.

(** C3 (amended): under a non-empty tag prefix, [IsDiffTag] answers [true]
    whenever the tag listing ran without error, whether or not it found a
    usable pair; when the listing fails it answers [false] with two empty
    tags. *)
Theorem C3_tag_mode_reported_unless_listing_fails (c : Command) (w : World) :
  diffTagPrefix c <> "" ->
  match snd (processes w (latestTwoTags c (diffTagPrefix c))) with
  | None => fst (fst (fst (IsDiffTag c w))) = true
  | Some _ => fst (IsDiffTag c w) = (false, "", "")
  end.
Proof.
  intros Hp. rewrite (IsDiffTag_value c w Hp).
  destruct (processes w (latestTwoTags c (diffTagPrefix c))) as [out [e|]];
    simpl; [reflexivity|].
  destruct (strings.Split (string_of_list_byte out) " ") as [|t1 [|t2 [|t3 ts]]];
    reflexivity.
Qed.

Lemma C3_tag_mode_reported_unless_listing_fails_witness :
  fst (fst (fst (IsDiffTag (New [WithDiffTagPrefix "v"]) (world_printing "v9"))))
    = true /\
  fst (IsDiffTag (New [WithDiffTagPrefix "v"]) world_failing) = (false, "", "").
Proof.
  split.
  - apply (C3_tag_mode_reported_unless_listing_fails
             (New [WithDiffTagPrefix "v"]) (world_printing "v9")).
    discriminate.
  - apply (C3_tag_mode_reported_unless_listing_fails
             (New [WithDiffTagPrefix "v"]) world_failing).
    discriminate.
Defined.

(** C4, as the specification states it, fails: when the listing prints a
    blank followed by [v1.1.0], the split gives two tokens of which the first
    is empty, and [IsDiffTag] returns them as they are instead of two empty
    tags. *)
Lemma C4_counterexample_empty_token_is_returned :
  strings.Split " v1.1.0" " " = [""; "v1.1.0"] /\
  fst (IsDiffTag (New [WithDiffTagPrefix "v"]) (world_printing " v1.1.0"))
    = (true, "", "v1.1.0") /\
  fst (IsDiffTag (New [WithDiffTagPrefix "v"]) (world_printing " v1.1.0"))
    <> (true, "", "").
Proof. repeat split. discriminate. Qed.

(** C4 (amended): under a non-empty tag prefix and a tag listing that ran
    without error, [IsDiffTag] splits the output at single spaces and returns
    the two tokens as the tags exactly when the split yields two tokens,
    empty or not, and [true] with two empty tags for any other token count;
    so [v1.2.0 v1.1.0] gives those two tags, and [v1.2.0] alone or the empty
    output gives two empty tags. *)
Theorem C4_two_tokens_are_the_tags
  (c : Command) (w : World) (output : list byte) :
  diffTagPrefix c <> "" ->
  processes w (latestTwoTags c (diffTagPrefix c)) = (output, None) ->
  (forall t1 t2,
     strings.Split (string_of_list_byte output) " " = [t1; t2] ->
     fst (IsDiffTag c w) = (true, t1, t2)) /\
  (length (strings.Split (string_of_list_byte output) " ") <> 2 ->
     fst (IsDiffTag c w) = (true, "", "")) /\
  (string_of_list_byte output = "v1.2.0 v1.1.0" ->
     fst (IsDiffTag c w) = (true, "v1.2.0", "v1.1.0")) /\
  (string_of_list_byte output = "v1.2.0" \/ string_of_list_byte output = "" ->
     fst (IsDiffTag c w) = (true, "", "")).
Proof.
  intros Hp Hrun. rewrite (IsDiffTag_value c w Hp), Hrun.
  repeat split.
  - intros t1 t2 E. now rewrite E.
  - intros L.
    destruct (strings.Split (string_of_list_byte output) " ")
      as [|t1 [|t2 [|t3 ts]]]; try reflexivity.
    now contradiction L.
  - intros E. now rewrite E.
  - intros [E|E]; now rewrite E.
Qed.

Lemma C4_two_tokens_are_the_tags_witness :
  fst (IsDiffTag (New [WithDiffTagPrefix "v"]) (world_printing "v1.2.0 v1.1.0"))
    = (true, "v1.2.0", "v1.1.0") /\
  fst (IsDiffTag (New [WithDiffTagPrefix "v"]) (world_printing "v1.2.0"))
    = (true, "", "").
Proof.
  split.
  - refine (proj1 (proj2 (proj2
      (C4_two_tokens_are_the_tags
         (New [WithDiffTagPrefix "v"]) (world_printing "v1.2.0 v1.1.0")
         (list_byte_of_string "v1.2.0 v1.1.0") _ eq_refl))) eq_refl).
    discriminate.
  - refine (proj2 (proj2 (proj2
      (C4_two_tokens_are_the_tags
         (New [WithDiffTagPrefix "v"]) (world_printing "v1.2.0")
         (list_byte_of_string "v1.2.0") _ eq_refl))) (or_introl eq_refl)).
    discriminate.
Defined.

(** ** Mode selection and argument vectors *)

(** Under a non-empty prefix the builders append the pair of the
    specification when there is one, and nothing otherwise. *)
Lemma rangeArgs_tagged (c : Command) (w : World) :
  diffTagPrefix c <> "" ->
  rangeArgs c w =
    match spec_tag_pair (processes w (latestTwoTags c (diffTagPrefix c))) with
    | Some (t1, t2) => [t1; t2]
    | None => []
    end.
Proof.
  intros Hp. unfold rangeArgs. rewrite (nonempty_eqb _ Hp). simpl.
  rewrite (IsDiffTag_value c w Hp). unfold spec_tag_pair.
  destruct (processes w (latestTwoTags c (diffTagPrefix c))) as [out [e|]];
    [reflexivity|].
  destruct (strings.Split (string_of_list_byte out) " ") as [|t1 [|t2 [|t3 ts]]];
    try reflexivity.
  simpl. now destruct (negb (t1 =? "")%string && negb (t2 =? "")%string).
Qed.

Lemma rangeArgs_untagged (c : Command) (w : World) :
  diffTagPrefix c = "" ->
  rangeArgs c w = if isAmend c then ["HEAD^"; "HEAD"] else ["--staged"].
Proof. intros Hp. unfold rangeArgs. now rewrite Hp. Qed.

(** X11: with a non-empty prefix and a usable pair, both vectors carry the
    two tags, newest first, between the fixed flags and the exclusion
    pathspecs, and nothing else. *)
Lemma tag_range_vectors (c : Command) (w : World) (t1 t2 : string) :
  diffTagPrefix c <> "" ->
  spec_tag_pair (processes w (latestTwoTags c (diffTagPrefix c))) = Some (t1, t2) ->
  Args (fst (diffNames c w)) =
    ["git"; "diff"; "--name-only"; t1; t2] ++ excludeFiles c /\
  Args (fst (diffFiles c w)) =
    ["git"; "diff"; "--ignore-all-space"; "--diff-algorithm=minimal";
     "--unified=" +:+ strconv.Itoa (diffUnified c); t1; t2] ++ excludeFiles c.
Proof.
  intros Hp Hpair.
  pose proof (rangeArgs_tagged c w Hp) as Hr. rewrite Hpair in Hr.
  rewrite diffNames_run, diffFiles_run, Hr. split; reflexivity.
Qed.

(** Every exclusion pathspec starts with a colon. *)
Lemma excludeFiles_colon (c : Command) (x : string) :
  In x (excludeFiles c) -> exists f, x = String ":" f.
Proof.
  rewrite excludeFiles_map. intros H. apply in_map_iff in H as [f [E _]].
  subst x. eexists. reflexivity.
Qed.

Lemma excludeFiles_not_range (c : Command) (x : string) :
  x = "--staged" \/ x = "HEAD^" \/ x = "HEAD" -> ~ In x (excludeFiles c).
Proof.
  intros Hx Hin. apply excludeFiles_colon in Hin as [f E]. subst x.
  destruct Hx as [H|[H|H]]; discriminate H.
Qed.

(** C1, as the specification states it, fails: with the prefix [v] and a tag
    listing that prints the single tag [v1.2.0], there is no usable pair, yet
    neither argument vector gets [--staged] (amend flag off) or [HEAD^]
    (amend flag on), while the same commands without the prefix do. *)
Lemma C1_counterexample_no_fall_through :
  spec_tag_pair
    (processes (world_tagged "v1.2.0" "a.go")
               (latestTwoTags (New [WithDiffTagPrefix "v"]) "v")) = None /\
  In "--staged" (Args (fst (diffNames (New []) (world_tagged "v1.2.0" "a.go")))) /\
  ~ In "--staged"
      (Args (fst (diffNames (New [WithDiffTagPrefix "v"])
                            (world_tagged "v1.2.0" "a.go")))) /\
  ~ In "--staged"
      (Args (fst (diffFiles (New [WithDiffTagPrefix "v"])
                            (world_tagged "v1.2.0" "a.go")))) /\
  In "HEAD^" (Args (fst (diffNames (New [WithEnableAmend true])
                                   (world_tagged "v1.2.0" "a.go")))) /\
  ~ In "HEAD^"
      (Args (fst (diffNames (New [WithDiffTagPrefix "v"; WithEnableAmend true])
                            (world_tagged "v1.2.0" "a.go")))) /\
  ~ In "HEAD^"
      (Args (fst (diffFiles (New [WithDiffTagPrefix "v"; WithEnableAmend true])
                            (world_tagged "v1.2.0" "a.go")))).
Proof.
  split; [reflexivity|].
  split; [vm_compute; tauto|].
  split; [refute_In|].
  split; [refute_In|].
  split; [vm_compute; tauto|].
  split; refute_In.
Qed.

(** C1 (amended): when the tag prefix is not empty and tag resolution yields
    no usable pair (the listing fails, or its output does not split into
    exactly two non-empty tokens), the builders append no range argument at
    all: the name-listing vector is [git diff --name-only] and the full-diff
    vector is [git diff] with its three fixed flags, each followed directly
    by the exclusion pathspecs, and neither contains [--staged], [HEAD^] or
    [HEAD], whatever the amend flag. *)
Theorem C1_no_pair_appends_no_range (c : Command) (w : World) :
  diffTagPrefix c <> "" ->
  spec_tag_pair (processes w (latestTwoTags c (diffTagPrefix c))) = None ->
  Args (fst (diffNames c w)) =
    ["git"; "diff"; "--name-only"] ++ excludeFiles c /\
  Args (fst (diffFiles c w)) =
    ["git"; "diff"; "--ignore-all-space"; "--diff-algorithm=minimal";
     "--unified=" +:+ strconv.Itoa (diffUnified c)] ++ excludeFiles c /\
  (forall x, x = "--staged" \/ x = "HEAD^" \/ x = "HEAD" ->
     ~ In x (Args (fst (diffNames c w))) /\
     ~ In x (Args (fst (diffFiles c w)))).
Proof.
  intros Hp Hnone.
  pose proof (rangeArgs_tagged c w Hp) as Hr. rewrite Hnone in Hr.
  rewrite diffNames_run, diffFiles_run, Hr. simpl.
  split; [reflexivity|]. split; [reflexivity|].
  intros x Hx. split; intros Hin.
  - destruct Hin as [E|[E|[E|Hin]]];
      [subst x; destruct Hx as [H|[H|H]]; discriminate H ..|].
    exact (excludeFiles_not_range c x Hx Hin).
  - destruct Hin as [E|[E|[E|[E|[E|Hin]]]]];
      [subst x; destruct Hx as [H|[H|H]]; discriminate H ..|].
    exact (excludeFiles_not_range c x Hx Hin).
Qed.

Lemma C1_no_pair_appends_no_range_witness :
  Args (fst (diffNames (New [WithDiffTagPrefix "v"; WithEnableAmend true])
                       world_failing)) =
    ["git"; "diff"; "--name-only"]
    ++ excludeFiles (New [WithDiffTagPrefix "v"; WithEnableAmend true]).
Proof.
  refine (proj1 (C1_no_pair_appends_no_range
                   (New [WithDiffTagPrefix "v"; WithEnableAmend true])
                   world_failing _ eq_refl)).
  discriminate.
Defined.

(** C7: with an empty tag prefix and the amend flag off, the name-listing
    vector is [git diff --name-only --staged] followed by one
    [:(exclude,top)] pathspec per exclusion entry, in order; with an empty
    tag prefix and the amend flag on, both diff vectors carry [HEAD^ HEAD]
    in that place and the commit vector ends with [--amend]. *)
Theorem C7_staged_and_amend_vectors (c : Command) (w : World) (val : string) :
  diffTagPrefix c = "" ->
  (isAmend c = false ->
     Args (fst (diffNames c w)) =
       ["git"; "diff"; "--name-only"; "--staged"]
       ++ map (fun f => ":(exclude,top)" +:+ f) (excludeList c)) /\
  (isAmend c = true ->
     Args (fst (diffNames c w)) =
       ["git"; "diff"; "--name-only"; "HEAD^"; "HEAD"]
       ++ map (fun f => ":(exclude,top)" +:+ f) (excludeList c) /\
     Args (fst (diffFiles c w)) =
       ["git"; "diff"; "--ignore-all-space"; "--diff-algorithm=minimal";
        "--unified=" +:+ strconv.Itoa (diffUnified c); "HEAD^"; "HEAD"]
       ++ map (fun f => ":(exclude,top)" +:+ f) (excludeList c) /\
     Args (commit c val) =
       ["git"; "commit"; "--no-verify"; "--signoff"; "--message=" +:+ val;
        "--amend"]).
Proof.
  intros Hp.
  rewrite diffNames_run, diffFiles_run, (rangeArgs_untagged c w Hp),
    excludeFiles_map.
  unfold commit.
  split; intros Ha; rewrite Ha; repeat split.
Qed.

Lemma C7_staged_and_amend_vectors_witness :
  Args (fst (diffNames (New [WithExcludeList ["dist"]]) (world_printing "a.go"))) =
    ["git"; "diff"; "--name-only"; "--staged";
     ":(exclude,top)package-lock.json"; ":(exclude,top)pnpm-lock.yaml";
     ":(exclude,top)*.lock"; ":(exclude,top)go.sum"; ":(exclude,top)dist"] /\
  Args (commit (New [WithEnableAmend true]) "fix: typo") =
    ["git"; "commit"; "--no-verify"; "--signoff"; "--message=fix: typo";
     "--amend"].
Proof.
  split.
  - exact (proj1 (C7_staged_and_amend_vectors
                    (New [WithExcludeList ["dist"]]) (world_printing "a.go")
                    "" eq_refl) eq_refl).
  - exact (proj2 (proj2 (proj2 (C7_staged_and_amend_vectors
                    (New [WithEnableAmend true]) (world_printing "a.go")
                    "fix: typo" eq_refl) eq_refl))).
Defined.

(** ** [DiffFiles] *)

(** [DiffFiles] step by step: result and final world, by the outcome of the
    two runs. *)
Lemma DiffFiles_run (c : Command) (w : World) :
  DiffFiles c w =
    match processes w (fst (diffNames c w)) with
    | (_, Some e) =>
        ("", Some e, logs (tagEvents c ++ [EvExec (fst (diffNames c w))]) w)
    | (output, None) =>
        if (string_of_list_byte output =? "")%string
        then ("", Some errNothingStaged,
              logs (tagEvents c ++ [EvExec (fst (diffNames c w))]) w)
        else
          (match processes w (fst (diffFiles c w)) with
           | (_, Some e) => ("", Some e)
           | (output2, None) => (string_of_list_byte output2, None)
           end,
           logs (tagEvents c ++ [EvExec (fst (diffNames c w))]
                 ++ tagEvents c ++ [EvExec (fst (diffFiles c w))]) w)
    end.
Proof.
  unfold DiffFiles, bind.
  rewrite diffNames_run. cbn [fst]. unfold Output at 1.
  change (processes (logs (tagEvents c) w)) with (processes w).
  rewrite log_logs, logs_logs.
  destruct (processes w _) as [out [e|]]; [reflexivity|].
  destruct (string_of_list_byte out =? "")%string; [reflexivity|].
  rewrite !diffFiles_run. cbn [fst]. unfold Output.
  rewrite (rangeArgs_ext c (logs _ w) w eq_refl).
  rewrite log_logs, !logs_logs, <- !app_assoc.
  cbn [processes logs].
  destruct (processes w _) as [out2 [e2|]]; reflexivity.
Qed.

(** The full-diff command is neither the name-listing command nor the tag
    listing. *)
Lemma full_diff_not_among (c : Command) (w w' : World) :
  ~ In (EvExec (fst (diffFiles c w')))
       (tagEvents c ++ [EvExec (fst (diffNames c w))]).
Proof.
  rewrite diffFiles_run, diffNames_run. cbn [fst].
  intros H. apply in_app_or in H as [H|H].
  - unfold tagEvents in H. destruct (diffTagPrefix c =? "")%string.
    + exact H.
    + destruct H as [H|H]; [discriminate H | exact H].
  - destruct H as [H|H]; [discriminate H | exact H].
Qed.

(** C5: [DiffFiles] runs the name-listing command first.  If that run fails,
    its error is returned; if it prints exactly the empty string, the
    staging-precondition error is returned and the full-diff command is not
    run; otherwise the full-diff command is run and its output, or its
    error, is returned.  The emitted events list the processes run, in
    order, the tag listing included when a prefix is set. *)
Theorem C5_DiffFiles_contract (c : Command) (w : World) :
  (forall output e,
     processes w (fst (diffNames c w)) = (output, Some e) ->
     fst (DiffFiles c w) = ("", Some e) /\
     emitted (DiffFiles c) w = tagEvents c ++ [EvExec (fst (diffNames c w))]) /\
  (forall output,
     processes w (fst (diffNames c w)) = (output, None) ->
     string_of_list_byte output = "" ->
     fst (DiffFiles c w) = ("", Some errNothingStaged) /\
     emitted (DiffFiles c) w = tagEvents c ++ [EvExec (fst (diffNames c w))] /\
     forall w', ~ In (EvExec (fst (diffFiles c w'))) (emitted (DiffFiles c) w)) /\
  (forall output,
     processes w (fst (diffNames c w)) = (output, None) ->
     string_of_list_byte output <> "" ->
     fst (DiffFiles c w) =
       match processes w (fst (diffFiles c w)) with
       | (_, Some e) => ("", Some e)
       | (output2, None) => (string_of_list_byte output2, None)
       end /\
     emitted (DiffFiles c) w =
       tagEvents c ++ [EvExec (fst (diffNames c w))]
       ++ tagEvents c ++ [EvExec (fst (diffFiles c w))]).
Proof.
  pose proof (DiffFiles_run c w) as R.
  split; [|split].
  - intros out e Hrun. rewrite Hrun in R.
    split; [now rewrite R|].
    apply emitted_logs. now rewrite R.
  - intros out Hrun Hempty. rewrite Hrun, Hempty in R. simpl in R.
    assert (E : emitted (DiffFiles c) w
                = tagEvents c ++ [EvExec (fst (diffNames c w))])
      by (apply emitted_logs; now rewrite R).
    split; [now rewrite R|]. split; [exact E|].
    intros w'. rewrite E. apply full_diff_not_among.
  - intros out Hrun Hsome. rewrite Hrun, (nonempty_eqb _ Hsome) in R.
    split; [now rewrite R|].
    apply emitted_logs. now rewrite R.
Qed.

Lemma C5_DiffFiles_contract_witness :
  fst (DiffFiles (New []) (world_printing "")) = ("", Some errNothingStaged) /\
  fst (DiffFiles (New []) world_failing)
    = ("", Some (ExecError "exit status 1")) /\
  fst (DiffFiles (New [WithDiffTagPrefix "v"]) (world_tagged "v2 v1" "+line"))
    = ("+line", None).
Proof.
  split; [|split].
  - exact (proj1 (proj1 (proj2 (C5_DiffFiles_contract (New []) (world_printing "")))
                    [] eq_refl eq_refl)).
  - exact (proj1 (proj1 (C5_DiffFiles_contract (New []) world_failing)
                    [] (ExecError "exit status 1") eq_refl)).
  - refine (proj1 (proj2 (proj2 (C5_DiffFiles_contract
                    (New [WithDiffTagPrefix "v"]) (world_tagged "v2 v1" "+line")))
                    (list_byte_of_string "+line") eq_refl _)).
    discriminate.
Defined.

(** ** The hook file *)

Section HookProperties.

Variable HookPrepareCommitMessageTemplate : string.
Variable GetTemplateByBytes : string -> list byte * option error.
Variable TrimSpace : string -> string.
Variable path_Join : string -> string -> string.

Local Abbreviation target_of printed :=
  (hookTarget HookPrepareCommitMessageTemplate TrimSpace path_Join printed).
Local Abbreviation Install :=
  (InstallHook HookPrepareCommitMessageTemplate GetTemplateByBytes
               TrimSpace path_Join).
Local Abbreviation Uninstall :=
  (UninstallHook HookPrepareCommitMessageTemplate TrimSpace path_Join).

(** An installation that succeeds found nothing at the target and leaves
    there a file with the template's content and mode 0755, all other paths
    as they were. *)
Lemma InstallHook_success (c : Command) (w : World) :
  fst (Install c w) = None ->
  exists printed content,
    processes w (hookPath c) = (printed, None) /\
    GetTemplateByBytes HookPrepareCommitMessageTemplate = (content, None) /\
    files w !! target_of printed = None /\
    snd (Install c w) =
      set_files (<[target_of printed := File content 493]> (files w))
                (logs [EvExec (hookPath c); EvWrite (target_of printed) content 493] w).
Proof.
  unfold InstallHook, hookTarget, bind, Output, file_IsFile.
  destruct (processes w (hookPath c)) as [printed [e|]]; simpl; [discriminate|].
  set (target := path_Join _ _).
  destruct (files w !! target) as [[data mode|]|] eqn:F; simpl;
    try discriminate.
  - destruct (GetTemplateByBytes _) as [content [e|]]; simpl; [discriminate|].
    unfold os_WriteFile; simpl. rewrite F.
    destruct (write_fault w target); simpl; discriminate.
  - destruct (GetTemplateByBytes _) as [content [e|]]; simpl; [discriminate|].
    unfold os_WriteFile; simpl. rewrite F.
    destruct (write_fault w target); simpl; [discriminate|].
    intros _. exists printed, content.
    split; [reflexivity|]. split; [reflexivity|]. split; [exact F|].
    unfold set_files, logs, log; simpl.
    now rewrite <- app_assoc.
Qed.

(** C8: once the hooks directory is resolved, [InstallHook] on a target that
    exists as a file fails with the error saying the hook file exists, and
    [UninstallHook] on a target that does not exist as a file fails with the
    error saying it does not; in both cases the files are exactly as before
    and the only event emitted is the run of the hooks query, so nothing is
    written, created or removed. *)
Theorem C8_hook_conflicts_touch_nothing
  (c : Command) (w : World) (printed : list byte) :
  processes w (hookPath c) = (printed, None) ->
  (fst (file_IsFile (target_of printed) w) = true ->
     fst (Install c w) = Some errHookExists /\
     files (snd (Install c w)) = files w /\
     emitted (Install c) w = [EvExec (hookPath c)]) /\
  (fst (file_IsFile (target_of printed) w) = false ->
     fst (Uninstall c w) = Some errHookMissing /\
     files (snd (Uninstall c w)) = files w /\
     emitted (Uninstall c) w = [EvExec (hookPath c)]).
Proof.
  intros Hrun. split; intros Hfile.
  - assert (R : Install c w = (Some errHookExists, logs [EvExec (hookPath c)] w)).
    { unfold InstallHook, bind, Output. rewrite Hrun.
      unfold file_IsFile, hookTarget in *. simpl in *.
      destruct (files w !! _) as [[data mode|]|]; simpl in *;
        try discriminate Hfile.
      reflexivity. }
    rewrite R. repeat split. apply emitted_logs. now rewrite R.
  - assert (R : Uninstall c w = (Some errHookMissing, logs [EvExec (hookPath c)] w)).
    { unfold UninstallHook, bind, Output. rewrite Hrun.
      unfold file_IsFile, hookTarget in *. simpl in *.
      destruct (files w !! _) as [[data mode|]|]; simpl in *;
        try discriminate Hfile; reflexivity. }
    rewrite R. repeat split. apply emitted_logs. now rewrite R.
Qed.

(** C9: when [InstallHook] succeeds and the [UninstallHook] that follows it
    succeeds, the hook file was absent at the start, present in between, and
    the files at the end are exactly the files at the start, the hook file
    absent again. *)
Theorem C9_install_then_uninstall_restores (c : Command) (w : World) :
  fst (Install c w) = None ->
  fst (Uninstall c (snd (Install c w))) = None ->
  files w !! target_of (fst (processes w (hookPath c))) = None /\
  is_Some (files (snd (Install c w))
             !! target_of (fst (processes w (hookPath c)))) /\
  files (snd (Uninstall c (snd (Install c w)))) = files w /\
  files (snd (Uninstall c (snd (Install c w))))
    !! target_of (fst (processes w (hookPath c))) = None.
Proof.
  intros Hin Hun.
  destruct (InstallHook_success c w Hin)
    as (printed & content & Hrun & Htpl & Habsent & Hw1).
  rewrite Hw1 in Hun |- *. rewrite Hrun. cbn [fst].
  assert (Hend : files (snd (Uninstall c
                   (set_files (<[target_of printed := File content 493]> (files w))
                      (logs [EvExec (hookPath c);
                             EvWrite (target_of printed) content 493] w))))
                 = files w).
  { revert Hun. unfold UninstallHook, bind, Output, file_IsFile. simpl.
    rewrite Hrun. simpl. fold (target_of printed).
    rewrite lookup_insert_eq. simpl.
    unfold os_Remove. simpl. rewrite lookup_insert_eq.
    destruct (remove_fault w (target_of printed)); simpl; [discriminate|].
    intros _. now apply delete_insert_id. }
  split; [exact Habsent|].
  split; [simpl; rewrite lookup_insert_eq; eauto|].
  split; [exact Hend|].
  rewrite Hend. exact Habsent.
Qed.

End HookProperties.

Lemma C8_hook_conflicts_touch_nothing_witness :
  fst (InstallHook sample_hook_name sample_loader sample_trim sample_join
         (New [])
         (world_hooks {[ ".git/hooks/prepare-commit-msg" := File [] 420%N ]}))
    = Some errHookExists /\
  fst (UninstallHook sample_hook_name sample_trim sample_join
         (New []) (world_hooks ∅))
    = Some errHookMissing.
Proof.
  split.
  - refine (proj1 (proj1 (C8_hook_conflicts_touch_nothing
      sample_hook_name sample_loader sample_trim sample_join (New [])
      (world_hooks {[ ".git/hooks/prepare-commit-msg" := File [] 420%N ]})
      _ eq_refl) _)).
    vm_compute. reflexivity.
  - refine (proj1 (proj2 (C8_hook_conflicts_touch_nothing
      sample_hook_name sample_loader sample_trim sample_join (New [])
      (world_hooks ∅) _ eq_refl) _)).
    vm_compute. reflexivity.
Defined.

Lemma C9_install_then_uninstall_restores_witness :
  files (snd (UninstallHook sample_hook_name sample_trim sample_join (New [])
                (snd (InstallHook sample_hook_name sample_loader sample_trim
                        sample_join (New []) (world_hooks ∅)))))
  = files (world_hooks ∅).
Proof.
  refine (proj1 (proj2 (proj2 (C9_install_then_uninstall_restores
    sample_hook_name sample_loader sample_trim sample_join (New [])
    (world_hooks ∅) _ _)))).
  - vm_compute. reflexivity.
  - vm_compute. reflexivity.
Defined.

(** ** Further properties of construction *)

Lemma apply_all_cons (o : Option) (opts : list Option) (c : config) :
  apply_all (o :: opts) c = apply_all opts (apply o c).
Proof. reflexivity. Qed.

Lemma build_commute (a b : OptionCall) (c : config) :
  field_of a <> field_of b -> build b (build a c) = build a (build b c).
Proof.
  intros H.
  destruct a as [v|[|e es]|v|v|v|v], b as [u|[|f fs]|u|u|u|u];
    try reflexivity; exfalso; apply H; reflexivity.
Qed.

Lemma build_override (a b : OptionCall) (c : config) :
  field_of a = field_of b -> b <> CallExcludeList [] ->
  build b (build a c) = build b c.
Proof.
  intros H Hb.
  destruct a as [v|[|e es]|v|v|v|v], b as [u|[|f fs]|u|u|u|u];
    try discriminate H; try reflexivity; now contradiction Hb.
Qed.

Lemma build_same_four (k : OptionCall) (c1 c2 : config) :
  same_four c1 c2 -> same_four (build k c1) (build k c2).
Proof.
  intros (H1 & H2 & H3 & H4).
  destruct k as [v|[|e es]|v|v|v|v]; repeat split; simpl; assumption.
Qed.

Lemma inert_same_four (k : OptionCall) (c1 c2 : config) :
  is_inert_call k = true -> same_four c1 c2 -> same_four c1 (build k c2).
Proof.
  intros Hk (H1 & H2 & H3 & H4).
  destruct k; try discriminate Hk; repeat split; simpl; assumption.
Qed.

Lemma New_of_same_four (xs ys : list Option) :
  same_four (apply_all xs config_zero) (apply_all ys config_zero) ->
  New xs = New ys.
Proof.
  intros (H1 & H2 & H3 & H4). unfold New. cbv zeta.
  now rewrite H1, H2, H3, H4.
Qed.

(** X1: two adjacent options that write different fields may be exchanged:
    the command built is the same. *)
Theorem X1_options_on_different_fields_commute
  (xs ys : list OptionCall) (a b : OptionCall) :
  field_of a <> field_of b ->
  New (map build (xs ++ a :: b :: ys)) = New (map build (xs ++ b :: a :: ys)).
Proof.
  intros H. unfold New.
  rewrite !map_app, !apply_all_app. cbn [map].
  rewrite !apply_all_cons. unfold apply.
  now rewrite (build_commute a b _ H).
Qed.

Lemma X1_options_on_different_fields_commute_witness :
  New [WithEnableAmend true; WithDiffUnified 7; WithDiffTagPrefix "v"]
  = New [WithDiffUnified 7; WithEnableAmend true; WithDiffTagPrefix "v"].
Proof.
  refine (X1_options_on_different_fields_commute
            [] [CallDiffTagPrefix "v"] (CallEnableAmend true)
            (CallDiffUnified 7) _).
  simpl. lia.
Defined.

(** X2: an option overrides the option just before it when both write the
    same field, unless it is the exclusion option with an empty list (which
    is a no-op): the earlier one may be dropped. *)
Theorem X2_later_option_on_same_field_wins
  (xs ys : list OptionCall) (a b : OptionCall) :
  field_of a = field_of b -> b <> CallExcludeList [] ->
  New (map build (xs ++ a :: b :: ys)) = New (map build (xs ++ b :: ys)).
Proof.
  intros H Hb. unfold New.
  rewrite !map_app, !apply_all_app. cbn [map].
  rewrite !apply_all_cons. unfold apply.
  now rewrite (build_override a b _ H Hb).
Qed.

Lemma X2_later_option_on_same_field_wins_witness :
  New [WithDiffTagPrefix "v"; WithDiffTagPrefix ""; WithEnableAmend true]
  = New [WithDiffTagPrefix ""; WithEnableAmend true].
Proof.
  refine (X2_later_option_on_same_field_wins
            [] [CallEnableAmend true] (CallDiffTagPrefix "v")
            (CallDiffTagPrefix "") eq_refl _).
  discriminate.
Defined.

(** X3: the context-line count is passed through without validation: the
    value of the last context-line option, negative or not, is the count of
    the command and appears in decimal in the full-diff vector. *)
Theorem X3_context_count_is_last_given_unvalidated
  (before after : list OptionCall) (v : Z) (w : World) :
  forallb (fun k => negb (is_unified_call k)) after = true ->
  diffUnified (New (map build (before ++ CallDiffUnified v :: after))) = v /\
  In ("--unified=" +:+ strconv.Itoa v)
     (Args (fst (diffFiles
                   (New (map build (before ++ CallDiffUnified v :: after))) w))).
Proof.
  intros H.
  assert (Hv : diffUnified
                 (New (map build (before ++ CallDiffUnified v :: after))) = v).
  { unfold New. cbn [diffUnified].
    rewrite map_app, apply_all_app. cbn [map]. rewrite apply_all_cons.
    now rewrite (apply_all_unified after _ H). }
  split; [exact Hv|].
  rewrite diffFiles_run, Hv. simpl. tauto.
Qed.

Lemma X3_context_count_is_last_given_unvalidated_witness :
  In "--unified=-5"
     (Args (fst (diffFiles
                   (New [WithDiffUnified 3; WithDiffUnified (-5);
                         WithEnableAmend true])
                   (world_printing "a.go")))).
Proof.
  exact (proj2 (X3_context_count_is_last_given_unvalidated
                  [CallDiffUnified 3] [CallEnableAmend true] (-5)
                  (world_printing "a.go") eq_refl)).
Defined.

(** X4: the options [WithDiffList] and [WithCommitId] may be removed from
    any position of the option list without changing the command built. *)
Theorem X4_inert_options_can_be_dropped_anywhere (calls : list OptionCall) :
  New (map build (List.filter (fun k => negb (is_inert_call k)) calls))
  = New (map build calls).
Proof.
  apply New_of_same_four.
  assert (G : forall c1 c2, same_four c1 c2 ->
                same_four
                  (apply_all (map build
                     (List.filter (fun k => negb (is_inert_call k)) calls)) c1)
                  (apply_all (map build calls) c2)).
  { induction calls as [|k calls IH]; intros c1 c2 Hc; [exact Hc|].
    cbn [List.filter map]. rewrite apply_all_cons. unfold apply.
    destruct (is_inert_call k) eqn:E; cbn [negb].
    - apply IH. now apply inert_same_four.
    - cbn [map]. rewrite apply_all_cons. unfold apply.
      apply IH. now apply build_same_four. }
  apply G. repeat split.
Qed.

(** X5: the commit vector carries [--amend] exactly when the amend flag is
    set, whatever the message; the message is always the single fifth
    argument, prefixed by [--message=], and the vector has five or six
    entries. *)
Theorem X5_commit_amend_only_from_flag (c : Command) (val : string) :
  (In "--amend" (Args (commit c val)) <-> isAmend c = true) /\
  nth 4 (Args (commit c val)) "" = "--message=" +:+ val /\
  length (Args (commit c val)) = (if isAmend c then 6 else 5)%nat.
Proof.
  unfold commit. destruct (isAmend c); cbn.
  - repeat split; intros; tauto.
  - repeat split; try discriminate.
    intros H.
    repeat (destruct H as [H|H]; [discriminate H|]). contradiction.
Qed.

Lemma X5_commit_amend_only_from_flag_witness :
  In "--amend" (Args (commit (New [WithEnableAmend true]) "fix: typo")).
Proof.
  exact (proj2 (proj1 (X5_commit_amend_only_from_flag
                         (New [WithEnableAmend true]) "fix: typo")) eq_refl).
Defined.

(** ** Further properties of the diff operations *)

Lemma tag_range_vectors_witness :
  Args (fst (diffNames (New [WithDiffTagPrefix "v"; WithEnableAmend true])
                       (world_tagged "v1.2.0 v1.1.0" "a.go")))
  = ["git"; "diff"; "--name-only"; "v1.2.0"; "v1.1.0"]
    ++ excludeFiles (New [WithDiffTagPrefix "v"; WithEnableAmend true]).
Proof.
  refine (proj1 (tag_range_vectors
                   (New [WithDiffTagPrefix "v"; WithEnableAmend true])
                   (world_tagged "v1.2.0 v1.1.0" "a.go")
                   "v1.2.0" "v1.1.0" _ eq_refl)).
  discriminate.
Defined.


Lemma files_logs (evs : list Event) (w : World) : files (logs evs w) = files w.
Proof. reflexivity. Qed.


(** X6: [DiffFiles], [Commit] and [GitDir] return an empty text whenever
    they return an error; the converse fails for [DiffFiles]: when the name
    listing prints something and the full diff prints nothing, it returns
    the empty text with no error. *)
Theorem X6_error_comes_with_empty_text
  (c : Command) (val : string) (w : World) :
  (snd (fst (DiffFiles c w)) <> None -> fst (fst (DiffFiles c w)) = "") /\
  (snd (fst (Commit c val w)) <> None -> fst (fst (Commit c val w)) = "") /\
  (snd (fst (GitDir c w)) <> None -> fst (fst (GitDir c w)) = "") /\
  (forall output,
     processes w (fst (diffNames c w)) = (output, None) ->
     string_of_list_byte output <> "" ->
     processes w (fst (diffFiles c w)) = ([], None) ->
     fst (DiffFiles c w) = ("", None)).
Proof.
  split; [|split; [|split]].
  - rewrite DiffFiles_run.
    destruct (processes w (fst (diffNames c w))) as [out [e|]];
      [reflexivity|].
    destruct (string_of_list_byte out =? "")%string; [reflexivity|].
    destruct (processes w (fst (diffFiles c w))) as [out2 [e2|]];
      [reflexivity|].
    intros H. now contradiction H.
  - unfold Commit, bind, Output.
    destruct (processes w (commit c val)) as [out [e|]]; [reflexivity|].
    intros H. now contradiction H.
  - unfold GitDir, bind, Output.
    destruct (processes w (gitDir c)) as [out [e|]]; [reflexivity|].
    intros H. now contradiction H.
  - intros out Hnames Hsome Hfull.
    rewrite DiffFiles_run, Hnames, (nonempty_eqb _ Hsome), Hfull.
    reflexivity.
Qed.

Lemma X6_error_comes_with_empty_text_witness :
  fst (fst (DiffFiles (New []) world_failing)) = "" /\
  fst (DiffFiles (New []) world_names_only) = ("", None).
Proof.
  split.
  - refine (proj1 (X6_error_comes_with_empty_text (New []) "" world_failing) _).
    discriminate.
  - refine (proj2 (proj2 (proj2
              (X6_error_comes_with_empty_text (New []) "" world_names_only)))
              (list_byte_of_string "a.go") eq_refl _ eq_refl).
    discriminate.
Defined.


(** X8: without a tag prefix no shell is started: [IsDiffTag] answers
    [false] with empty tags and runs nothing, and every process [DiffFiles]
    runs is git.  With a tag prefix the first thing [DiffFiles] runs is the
    shell pipeline of the tag listing. *)
Theorem X8_shell_only_with_tag_prefix (c : Command) (w : World) :
  (diffTagPrefix c = "" ->
     IsDiffTag c w = (false, "", "", w) /\
     forallb is_exec_git (emitted (DiffFiles c) w) = true) /\
  (diffTagPrefix c <> "" ->
     exists rest,
       emitted (DiffFiles c) w
       = EvExec (latestTwoTags c (diffTagPrefix c)) :: rest /\
       Path (latestTwoTags c (diffTagPrefix c)) = "bash").
Proof.
  split; intros Hp.
  - split; [unfold IsDiffTag; now rewrite Hp|].
    assert (Ht : tagEvents c = []) by (unfold tagEvents; now rewrite Hp).
    pose proof (DiffFiles_run c w) as R. rewrite Ht in R. cbn [app] in R.
    assert (Hn : Path (fst (diffNames c w)) = "git")
      by now rewrite diffNames_run.
    assert (Hf : Path (fst (diffFiles c w)) = "git")
      by now rewrite diffFiles_run.
    destruct (processes w (fst (diffNames c w))) as [out [e|]].
    + rewrite (emitted_logs (DiffFiles c) w [EvExec (fst (diffNames c w))])
        by now rewrite R.
      cbn. now rewrite Hn.
    + destruct (string_of_list_byte out =? "")%string.
      * rewrite (emitted_logs (DiffFiles c) w [EvExec (fst (diffNames c w))])
          by now rewrite R.
        cbn. now rewrite Hn.
      * rewrite (emitted_logs (DiffFiles c) w
                   [EvExec (fst (diffNames c w)); EvExec (fst (diffFiles c w))])
          by now rewrite R.
        cbn. now rewrite Hn, Hf.
  - assert (Ht : tagEvents c = [EvExec (latestTwoTags c (diffTagPrefix c))])
      by (unfold tagEvents; now rewrite (nonempty_eqb _ Hp)).
    pose proof (DiffFiles_run c w) as R. rewrite Ht in R.
    destruct (processes w (fst (diffNames c w))) as [out [e|]].
    + eexists. split; [|reflexivity].
      apply emitted_logs. rewrite R. reflexivity.
    + destruct (string_of_list_byte out =? "")%string.
      * eexists. split; [|reflexivity].
        apply emitted_logs. rewrite R. reflexivity.
      * eexists. split; [|reflexivity].
        apply emitted_logs. rewrite R. reflexivity.
Qed.

Lemma X8_shell_only_with_tag_prefix_witness :
  forallb is_exec_git
    (emitted (DiffFiles (New [WithEnableAmend true])) (world_printing "a.go"))
  = true.
Proof.
  exact (proj2 (proj1 (X8_shell_only_with_tag_prefix
                         (New [WithEnableAmend true]) (world_printing "a.go"))
                  eq_refl)).
Defined.

(** X9: whatever [IsDiffTag] returns, a [false] answer comes with two empty
    tags, and neither tag ever contains a blank. *)
Theorem X9_tags_are_blank_free
  (c : Command) (w : World) (is_ : bool) (tag1 tag2 : string) :
  fst (IsDiffTag c w) = (is_, tag1, tag2) ->
  (is_ = false -> tag1 = "" /\ tag2 = "") /\
  count_byte tag1 " " = 0 /\ count_byte tag2 " " = 0.
Proof.
  destruct (String.eqb_spec (diffTagPrefix c) "") as [Hp|Hp].
  - unfold IsDiffTag. rewrite Hp. cbn.
    intros E. injection E as <- <- <-. repeat split.
  - rewrite (IsDiffTag_value c w Hp).
    destruct (processes w (latestTwoTags c (diffTagPrefix c))) as [out [e|]].
    + intros E. injection E as <- <- <-. repeat split.
    + pose proof (Split_pieces_free (string_of_list_byte out) " ") as F.
      destruct (strings.Split (string_of_list_byte out) " ")
        as [|t1 [|t2 [|t3 ts]]]; intros E; injection E as <- <- <-;
        try (repeat split; discriminate).
      inversion F as [|? ? F1 F']; subst.
      inversion F' as [|? ? F2 _]; subst.
      repeat split; try assumption; discriminate.
Qed.

Lemma X9_tags_are_blank_free_witness :
  count_byte "v1.2.0" " " = 0 /\ count_byte "v1.1.0" " " = 0.
Proof.
  exact (proj2 (X9_tags_are_blank_free
                  (New [WithDiffTagPrefix "v"])
                  (world_printing "v1.2.0 v1.1.0")
                  true "v1.2.0" "v1.1.0" eq_refl)).
Defined.

(** X10: in one world the name listing and the full diff are asked about
    the same change set: after their fixed leading flags the two vectors
    are identical, range arguments and exclusion pathspecs alike. *)
Theorem X10_both_builders_select_the_same_range (c : Command) (w : World) :
  firstn 3 (Args (fst (diffNames c w))) = ["git"; "diff"; "--name-only"] /\
  firstn 5 (Args (fst (diffFiles c w))) =
    ["git"; "diff"; "--ignore-all-space"; "--diff-algorithm=minimal";
     "--unified=" +:+ strconv.Itoa (diffUnified c)] /\
  skipn 3 (Args (fst (diffNames c w))) = skipn 5 (Args (fst (diffFiles c w))).
Proof. rewrite diffNames_run, diffFiles_run. repeat split. Qed.

Lemma IsDiffTag_prefix_only (c1 c2 : Command) (w : World) :
  diffTagPrefix c1 = diffTagPrefix c2 -> IsDiffTag c1 w = IsDiffTag c2 w.
Proof. intros H. unfold IsDiffTag, latestTwoTags. now rewrite H. Qed.

(** X12: with a tag prefix set, the amend flag has no effect on the diff:
    both builders and [DiffFiles] compute the same for either value of the
    flag. *)
Theorem X12_tag_prefix_overrides_amend (c : Command) (b : bool) (w : World) :
  diffTagPrefix c <> "" ->
  diffNames (set_amend c b) w = diffNames c w /\
  diffFiles (set_amend c b) w = diffFiles c w /\
  DiffFiles (set_amend c b) w = DiffFiles c w.
Proof.
  intros Hp.
  assert (Hr : forall w', rangeArgs (set_amend c b) w' = rangeArgs c w').
  { intros w'. unfold rangeArgs. cbn [diffTagPrefix set_amend].
    rewrite (nonempty_eqb _ Hp). cbn [negb].
    now rewrite (IsDiffTag_prefix_only (set_amend c b) c w' eq_refl). }
  assert (Hn : forall w', diffNames (set_amend c b) w' = diffNames c w')
    by (intros w'; rewrite !diffNames_run, Hr; reflexivity).
  assert (Hf : forall w', diffFiles (set_amend c b) w' = diffFiles c w')
    by (intros w'; rewrite !diffFiles_run, Hr; reflexivity).
  split; [apply Hn|]. split; [apply Hf|].
  rewrite !DiffFiles_run, Hn, Hf. reflexivity.
Qed.

Lemma X12_tag_prefix_overrides_amend_witness :
  DiffFiles (set_amend (New [WithDiffTagPrefix "v"]) true)
            (world_tagged "v1.2.0" "a.go")
  = DiffFiles (New [WithDiffTagPrefix "v"]) (world_tagged "v1.2.0" "a.go").
Proof.
  refine (proj2 (proj2 (X12_tag_prefix_overrides_amend
                          (New [WithDiffTagPrefix "v"]) true
                          (world_tagged "v1.2.0" "a.go") _))).
  discriminate.
Defined.

(** X13: whatever the options and the mode, both diff vectors end with the
    exclusion pathspecs of the command, so each of the four built-in
    entries is excluded, at the top of the repository, from every diff. *)
Theorem X13_lock_files_are_excluded_from_every_diff
  (opts : list Option) (w : World) :
  (exists front, Args (fst (diffNames (New opts) w))
                 = front ++ excludeFiles (New opts)) /\
  (exists front, Args (fst (diffFiles (New opts) w))
                 = front ++ excludeFiles (New opts)) /\
  Forall (fun f =>
            In (":(exclude,top)" +:+ f) (Args (fst (diffNames (New opts) w))) /\
            In (":(exclude,top)" +:+ f) (Args (fst (diffFiles (New opts) w))))
         ["package-lock.json"; "pnpm-lock.yaml"; "*.lock"; "go.sum"].
Proof.
  rewrite diffNames_run, diffFiles_run. cbn [fst Args exec_Command].
  assert (Hin : forall f front,
            In f ["package-lock.json"; "pnpm-lock.yaml"; "*.lock"; "go.sum"] ->
            In (":(exclude,top)" +:+ f) (front ++ excludeFiles (New opts))).
  { intros f front Hf. apply in_or_app. right.
    rewrite excludeFiles_map. apply in_map. unfold New. cbn [excludeList].
    apply in_or_app. left. exact Hf. }
  split; [|split].
  - exists ("git" :: ["diff"; "--name-only"] ++ rangeArgs (New opts) w).
    reflexivity.
  - eexists ("git" :: [_; _; _; _] ++ rangeArgs (New opts) w).
    reflexivity.
  - rewrite Forall_forall. intros f Hf. apply list_elem_of_In in Hf. split.
    + apply (Hin f ("git" :: ["diff"; "--name-only"] ++ rangeArgs (New opts) w)) in Hf.
      exact Hf.
    + apply (Hin f ("git" :: ["diff"; "--ignore-all-space";
                              "--diff-algorithm=minimal";
                              "--unified=" +:+ strconv.Itoa (diffUnified (New opts))]
                    ++ rangeArgs (New opts) w)) in Hf.
      exact Hf.
Qed.

(** ** Further properties of the hook operations *)

Section HookOutcomes.

Variable HookPrepareCommitMessageTemplate : string.
Variable GetTemplateByBytes : string -> list byte * option error.
Variable TrimSpace : string -> string.
Variable path_Join : string -> string -> string.

Local Abbreviation target_of printed :=
  (hookTarget HookPrepareCommitMessageTemplate TrimSpace path_Join printed).
Local Abbreviation Install :=
  (InstallHook HookPrepareCommitMessageTemplate GetTemplateByBytes
               TrimSpace path_Join).
Local Abbreviation Uninstall :=
  (UninstallHook HookPrepareCommitMessageTemplate TrimSpace path_Join).

(** [InstallHook] step by step. *)
Lemma InstallHook_run (c : Command) (w : World) :
  Install c w =
    match processes w (hookPath c) with
    | (_, Some e) => (Some e, logs [EvExec (hookPath c)] w)
    | (printed, None) =>
        match files w !! target_of printed with
        | Some (File _ _) => (Some errHookExists, logs [EvExec (hookPath c)] w)
        | other =>
            match GetTemplateByBytes HookPrepareCommitMessageTemplate with
            | (_, Some e) => (Some e, logs [EvExec (hookPath c)] w)
            | (content, None) =>
                match write_fault w (target_of printed), other with
                | Some e, _ =>
                    (Some e,
                     logs [EvExec (hookPath c);
                           EvWrite (target_of printed) content 493] w)
                | None, Some _ =>
                    (Some (PathError "open" (target_of printed)),
                     logs [EvExec (hookPath c);
                           EvWrite (target_of printed) content 493] w)
                | None, None =>
                    (None,
                     set_files
                       (<[target_of printed := File content 493]> (files w))
                       (logs [EvExec (hookPath c);
                              EvWrite (target_of printed) content 493] w))
                end
            end
        end
    end.
Proof.
  unfold InstallHook, hookTarget, bind, Output, file_IsFile.
  destruct (processes w (hookPath c)) as [printed [e|]]; [reflexivity|].
  cbn [files log]. set (target := path_Join _ _).
  destruct (files w !! target) as [[data mode|]|] eqn:F; [reflexivity| |].
  - destruct (GetTemplateByBytes _) as [content [e|]]; [reflexivity|].
    unfold os_WriteFile. cbn [files log write_fault]. rewrite F.
    unfold log, logs; cbn. rewrite <- app_assoc.
    now destruct (write_fault w target).
  - destruct (GetTemplateByBytes _) as [content [e|]]; [reflexivity|].
    unfold os_WriteFile. cbn [files log write_fault]. rewrite F.
    unfold log, logs, set_files; cbn. rewrite <- app_assoc.
    now destruct (write_fault w target).
Qed.

(** [UninstallHook] step by step. *)
Lemma UninstallHook_run (c : Command) (w : World) :
  Uninstall c w =
    match processes w (hookPath c) with
    | (_, Some e) => (Some e, logs [EvExec (hookPath c)] w)
    | (printed, None) =>
        match files w !! target_of printed with
        | Some (File _ _) =>
            match remove_fault w (target_of printed) with
            | Some e =>
                (Some e,
                 logs [EvExec (hookPath c); EvRemove (target_of printed)] w)
            | None =>
                (None,
                 set_files (delete (target_of printed) (files w))
                   (logs [EvExec (hookPath c); EvRemove (target_of printed)] w))
            end
        | _ => (Some errHookMissing, logs [EvExec (hookPath c)] w)
        end
    end.
Proof.
  unfold UninstallHook, hookTarget, bind, Output, file_IsFile.
  destruct (processes w (hookPath c)) as [printed [e|]]; [reflexivity|].
  cbn [files log]. set (target := path_Join _ _).
  destruct (files w !! target) as [[data mode|]|] eqn:F;
    [|reflexivity|reflexivity].
  cbn [negb]. unfold os_Remove. cbn [files log remove_fault]. rewrite F.
  unfold log, logs, set_files; cbn. rewrite <- app_assoc.
  now destruct (remove_fault w target).
Qed.


(** X15: [UninstallHook] succeeds exactly when the hooks query succeeds, the
    target is a file and its removal is not refused; the files are then
    those of before without the target. *)
Theorem X15_uninstall_succeeds_exactly_when (c : Command) (w : World) :
  (fst (Uninstall c w) = None <->
   exists printed data mode,
     processes w (hookPath c) = (printed, None) /\
     files w !! target_of printed = Some (File data mode) /\
     remove_fault w (target_of printed) = None) /\
  (fst (Uninstall c w) = None ->
   files (snd (Uninstall c w)) =
     delete (target_of (fst (processes w (hookPath c)))) (files w)).
Proof.
  rewrite UninstallHook_run.
  destruct (processes w (hookPath c)) as [printed [e|]].
  { split; [split|]; [discriminate | | discriminate].
    intros (p & d & m & H & _). discriminate H. }
  cbn [fst].
  destruct (files w !! target_of printed) as [[data mode|]|] eqn:F;
    [|split; [split|]; [discriminate | | discriminate];
      intros (p & d & m & H & H' & _); injection H as <-; congruence ..].
  destruct (remove_fault w (target_of printed)) eqn:R.
  { split; [split|]; [discriminate | | discriminate].
    intros (p & d & m & H & _ & H'). injection H as <-. congruence. }
  split; [split|]; [| reflexivity | reflexivity].
  intros _. exists printed, data, mode. repeat split; assumption.
Qed.

(** X16: whatever their outcome, the two hook operations touch no path but
    the target: every other path holds after the call what it held before. *)
Theorem X16_hook_operations_touch_only_the_target
  (c : Command) (w : World) (other : string) :
  other <> target_of (fst (processes w (hookPath c))) ->
  files (snd (Install c w)) !! other = files w !! other /\
  files (snd (Uninstall c w)) !! other = files w !! other.
Proof.
  intros Hne. rewrite InstallHook_run, UninstallHook_run.
  destruct (processes w (hookPath c)) as [printed [e|]];
    [split; reflexivity|].
  cbn [fst] in Hne. split.
  - destruct (files w !! target_of printed) as [[data mode|]|];
      [reflexivity | |];
      (destruct (GetTemplateByBytes _) as [content [e|]]; [reflexivity|]);
      (destruct (write_fault w (target_of printed)); [reflexivity|]);
      [reflexivity|].
    cbn. now apply lookup_insert_ne.
  - destruct (files w !! target_of printed) as [[data mode|]|];
      [|reflexivity|reflexivity].
    destruct (remove_fault w (target_of printed)); [reflexivity|].
    cbn. now apply lookup_delete_ne.
Qed.

(** X17: the operations do not repeat: after a successful [InstallHook] a
    second one fails with the error saying the hook file exists, and after
    a successful [UninstallHook] a second one fails with the error saying it
    does not; the second call changes no file. *)
Theorem X17_hook_operations_do_not_repeat (c : Command) (w : World) :
  (fst (Install c w) = None ->
   fst (Install c (snd (Install c w))) = Some errHookExists /\
   files (snd (Install c (snd (Install c w)))) = files (snd (Install c w))) /\
  (fst (Uninstall c w) = None ->
   fst (Uninstall c (snd (Uninstall c w))) = Some errHookMissing /\
   files (snd (Uninstall c (snd (Uninstall c w))))
   = files (snd (Uninstall c w))).
Proof.
  split.
  - rewrite (InstallHook_run c w).
    destruct (processes w (hookPath c)) as [printed [e|]] eqn:P;
      [discriminate|].
    destruct (files w !! target_of printed) as [[data mode|]|];
      [discriminate | |];
      (destruct (GetTemplateByBytes _) as [content [e|]]; [discriminate|]);
      (destruct (write_fault w (target_of printed)); [discriminate|]);
      [discriminate|].
    intros _. cbn [snd]. rewrite InstallHook_run.
    cbn [processes set_files logs files]. rewrite P, lookup_insert_eq.
    split; reflexivity.
  - rewrite (UninstallHook_run c w).
    destruct (processes w (hookPath c)) as [printed [e|]] eqn:P;
      [discriminate|].
    destruct (files w !! target_of printed) as [[data mode|]|];
      [|discriminate|discriminate].
    destruct (remove_fault w (target_of printed)); [discriminate|].
    intros _. cbn [snd]. rewrite UninstallHook_run.
    cbn [processes set_files logs files]. rewrite P, lookup_delete_eq.
    split; reflexivity.
Qed.


(** X19: failures before the write are passed on and cost nothing: when the
    hooks query fails, both operations return its error; when the template
    fails to load for an absent target, [InstallHook] returns that error;
    in each case the files are untouched and only the hooks query was run. *)
Theorem X19_early_failures_touch_nothing
  (c : Command) (w : World) (printed : list byte) (e : error) :
  (processes w (hookPath c) = (printed, Some e) ->
   Install c w = (Some e, logs [EvExec (hookPath c)] w) /\
   Uninstall c w = (Some e, logs [EvExec (hookPath c)] w)) /\
  (processes w (hookPath c) = (printed, None) ->
   fst (file_IsFile (target_of printed) w) = false ->
   snd (GetTemplateByBytes HookPrepareCommitMessageTemplate) = Some e ->
   Install c w = (Some e, logs [EvExec (hookPath c)] w)).
Proof.
  rewrite InstallHook_run, UninstallHook_run. split.
  - intros P. rewrite P. split; reflexivity.
  - intros P F T. rewrite P. unfold file_IsFile in F. cbn [fst] in F.
    destruct (GetTemplateByBytes _) as [content [e'|]]; cbn [snd] in T;
      [|discriminate T].
    injection T as ->.
    destruct (files w !! target_of printed) as [[data mode|]|];
      [discriminate F | reflexivity | reflexivity].
Qed.

End HookOutcomes.


Lemma X15_uninstall_succeeds_exactly_when_witness :
  fst (UninstallHook sample_hook_name sample_trim sample_join (New [])
         (world_hooks {[ ".git/hooks/prepare-commit-msg" := File [] 420%N ]}))
  = None.
Proof.
  apply (proj1 (X15_uninstall_succeeds_exactly_when
                  sample_hook_name sample_trim sample_join (New [])
                  (world_hooks {[ ".git/hooks/prepare-commit-msg" := File [] 420%N ]}))).
  exists (list_byte_of_string (".git/hooks" +:+ String "010" "")), [], 420%N.
  repeat split.
Defined.

Lemma X16_hook_operations_touch_only_the_target_witness :
  files (snd (InstallHook sample_hook_name sample_loader sample_trim
                sample_join (New [])
                (world_hooks {[ "README.md" := File [] 420%N ]})))
    !! "README.md"
  = Some (File [] 420%N).
Proof.
  refine (eq_trans
            (proj1 (X16_hook_operations_touch_only_the_target
                      sample_hook_name sample_loader sample_trim sample_join
                      (New []) (world_hooks {[ "README.md" := File [] 420%N ]})
                      "README.md" _))
            _).
  - intros H. vm_compute in H. discriminate H.
  - vm_compute. reflexivity.
Defined.

Lemma X17_hook_operations_do_not_repeat_witness :
  fst (InstallHook sample_hook_name sample_loader sample_trim sample_join
         (New [])
         (snd (InstallHook sample_hook_name sample_loader sample_trim
                 sample_join (New []) (world_hooks ∅))))
  = Some errHookExists.
Proof.
  refine (proj1 (proj1 (X17_hook_operations_do_not_repeat
                          sample_hook_name sample_loader sample_trim
                          sample_join (New []) (world_hooks ∅)) _)).
  vm_compute. reflexivity.
Defined.


Lemma X19_early_failures_touch_nothing_witness :
  fst (InstallHook sample_hook_name sample_loader sample_trim sample_join
         (New []) world_failing) = Some (ExecError "exit status 1") /\
  fst (InstallHook "no-such-template" sample_loader sample_trim sample_join
         (New []) (world_hooks ∅)) = Some (TemplateError "no-such-template").
Proof.
  split.
  - exact (f_equal fst
             (proj1 (proj1 (X19_early_failures_touch_nothing
                              sample_hook_name sample_loader sample_trim
                              sample_join (New []) world_failing
                              [] (ExecError "exit status 1")) eq_refl))).
  - exact (f_equal fst
             (proj2 (X19_early_failures_touch_nothing
                       "no-such-template" sample_loader sample_trim
                       sample_join (New []) (world_hooks ∅)
                       (list_byte_of_string (".git/hooks" +:+ String "010" ""))
                       (TemplateError "no-such-template"))
                eq_refl eq_refl eq_refl)).
Defined.
